(** * Topographic variable extraction for the Alaska permafrost thaw database

    A shallow embedding of [GEE_TopographicVariableExtractionScript.js] and a
    verification of its specification.

    The script is a chain of whole-collection transformations written against
    the Earth Engine client library.  Part one ([Module EE]) models the few
    library operations the script calls; part two ([Module Script]) is the
    script itself, statement by statement; part three holds the theorems.

    The library is not part of the repository.  Its operations are modelled
    after its reference documentation ([sampleRegions] keeps no feature that
    meets a masked pixel and snaps geometries to pixel centres; [reduceRegion]
    refuses a region of more than [maxPixels] pixels; arithmetic on a null
    operand fails), and, for the neighbourhood mean, after the contract the
    specification gives for it.  The raster lives on a plane grid of square
    cells.

    Numbers are real numbers: an [ee.Number] is a double on the platform, and
    the statements about [Module Script] are about the exact arithmetic that
    the doubles approximate.  Where rounding decides a property of the index,
    [Module Doubles] repeats the arithmetic of [withSRI] in binary64, with the
    cosine and the sine of the platform as parameters. *)

From Stdlib Require Import Reals Lra Lia ZArith.
From Stdlib Require Floats.PrimFloat.
From stdpp Require Import base option list gmap strings.

Local Open Scope R_scope.

(** ** Results of server-side evaluation

    An Earth Engine computation either yields a value or fails with a
    message; a failure anywhere inside a mapped function fails the whole
    collection, hence the whole export. *)

Inductive result (A : Type) : Type :=
| Ok (a : A)
| Err (msg : string).
Arguments Ok {A} a.
Arguments Err {A} msg.

#[global] Instance result_ret : MRet result := λ A a, Ok a.
#[global] Instance result_bind : MBind result := λ A B f r,
  match r with
  | Ok a => f a
  | Err msg => Err msg
  end.

(** [collection.map(f)]: apply [f] to every element, in order; the first
    failure is the failure of the collection. *)
Fixpoint map_collection {A B} (f : A → result B) (l : list A) : result (list B) :=
  match l with
  | [] => Ok []
  | x :: l' =>
      y ← f x;
      ys ← map_collection f l';
      mret (y :: ys)
  end.

Module EE.

(** *** Values, geometries, features *)

(** A property value.  [null] is the absence of a value: [option Value]. *)
Inductive Value : Type :=
| VNum (x : R)
| VStr (s : string).

(** A point geometry, (longitude, latitude) in degrees.  The repository's
    notes say the script assumes point geometries for the thaw database. *)
Record Point : Type := mkPoint { lon : R; lat : R }.

(** The region [point.buffer(distance)]. *)
Record Region : Type := mkDisk { disk_centre : Point; disk_radius : Z }.

(** A feature: a geometry (none when the record has no usable coordinate
    pair) and a dictionary of named properties. *)
Record Feature : Type := mkFeature {
  geometry : option Point;
  properties : gmap string Value
}.

(** [feature.get(key)]: [null] when the property is not there. *)
Definition Feature_get (f : Feature) (key : string) : option Value :=
  properties f !! key.

(** [feature.set(key, value)]: a new feature with that one property
    overridden; a [null] value leaves the feature without the property. *)
Definition Feature_set (f : Feature) (key : string) (value : option Value) : Feature :=
  {| geometry := geometry f;
     properties := match value with
                   | Some v => <[key := v]> (properties f)
                   | None => delete key (properties f)
                   end |}.

(** [feature.geometry()] used as an argument of a geometry operation. *)
Definition Feature_geometry (f : Feature) : result Point :=
  match geometry f with
  | Some g => Ok g
  | None => Err "Geometry: parameter 'geometry' is required"
  end.

(** [geometry.coordinates()] of a point: the list [lon, lat]. *)
Definition Geometry_coordinates (g : Point) : list R := [lon g; lat g].

(** [list.get(i)]. *)
Definition List_get {A} (l : list A) (i : nat) : result A :=
  match l !! i with
  | Some x => Ok x
  | None => Err "List.get: index out of bounds"
  end.

(** [geometry.buffer(distance)]. *)
Definition Geometry_buffer (g : Point) (distance : Z) : Region :=
  {| disk_centre := g; disk_radius := distance |}.

(** [ee.Number(x)] as an operand of arithmetic: a number, or a failure
    ("Parameter ... is required", or a type mismatch). *)
Definition Number (x : option Value) : result R :=
  match x with
  | Some (VNum r) => Ok r
  | Some (VStr _) => Err "Number: cannot convert a String to a Number"
  | None => Err "Number: parameter is required and may not be null"
  end.

(** *** Rasters *)

Definition Cell : Type := Z * Z.

(** One band: a value per cell, [None] where the cell is masked or lies
    outside the raster extent. *)
Definition Band : Type := Cell → option R.

(** The georeferencing of a raster at the scale the script asks for: which
    cell a point falls in, and where the centre of a cell is. *)
Record Grid : Type := mkGrid {
  cellAt : Point → Cell;
  centre : Cell → Point;
  cellAt_centre : ∀ c, cellAt (centre c) = c
}.

Record Image : Type := mkImage {
  grid : Grid;
  bands : list (string * Band)
}.

Definition Image_bandNames (img : Image) : list string := (bands img).*1.

Definition lookup_band (img : Image) (name : string) : result Band :=
  match list_find (λ nb, nb.1 = name) (bands img) with
  | Some (_, (_, b)) => Ok b
  | None => Err ("Image.select: band not found: " +:+ name)
  end.

(** [image.select([names])]. *)
Definition Image_select (img : Image) (names : list string) : result Image :=
  bs ← map_collection (λ n, b ← lookup_band img n; mret (n, b)) names;
  mret {| grid := grid img; bands := bs |}.

(** The three derivative algorithms behind [ee.Terrain.products]; each
    turns the elevation band into another band. *)
Record TerrainAlgorithm : Type := mkTerrain {
  slopeOf : Band → Band;
  aspectOf : Band → Band;
  hillshadeOf : Band → Band
}.

(** [ee.Terrain.products(dem)]: the input bands, plus [slope], [aspect]
    and [hillshade] derived from the band named [elevation]. *)
Definition Terrain_products (alg : TerrainAlgorithm) (dem : Image) : result Image :=
  e ← lookup_band dem "elevation";
  mret {| grid := grid dem;
          bands := bands dem ++ [("slope", slopeOf alg e);
                                 ("aspect", aspectOf alg e);
                                 ("hillshade", hillshadeOf alg e)] |}.

(** What one input feature becomes under [sampleRegions]: the values of
    all bands at the cell the feature falls in.  This is platform code; the
    model follows its documented behaviour, which the script takes as it is
    (it passes [collection], [scale] and [geometries] only).  A feature
    without geometry meets no cell, and a feature over a cell where some band
    is masked is dropped: no feature with a null band property is ever
    produced.  With [geometries: true] the output geometry is the centre of
    the sampled cell.  All properties of the input feature are copied, then
    the band values are written. *)
Definition sample_feature (img : Image) (f : Feature) : option Feature :=
  g ← geometry f;
  let c := cellAt (grid img) g in
  vals ← mapM (λ nb : string * Band, v ← nb.2 c; Some (nb.1, v)) (bands img);
  Some {| geometry := Some (centre (grid img) c);
          properties := foldl (λ m (nv : string * R), <[nv.1 := VNum nv.2]> m)
                              (properties f) vals |}.

(** [image.sampleRegions({collection, scale, geometries: true})].  The
    scale is the one the grid of the image is given at. *)
Definition Image_sampleRegions (img : Image) (collection : list Feature) : list Feature :=
  omap (sample_feature img) collection.

(** *** Reducing a region *)

Definition range (lo hi : Z) : list Z := seqZ lo (hi - lo + 1).

(** Modelled from the spec: how the platform rasterises a buffered point is
    not in the repository; after section 4.1 ([meanInDisk]) a disk holds the
    cells whose centres fall within [radius] distance units of its centre.
    The cells are listed as offsets from the cell of the centre, cells being
    [scale] units wide.  Every buffer of the script is built around a
    sampled geometry, which is a cell centre. *)
Definition disk_offsets (scale radius : Z) : list Cell :=
  let n := (radius / scale)%Z in
  filter (λ d : Cell, (scale * d.1) * (scale * d.1) + (scale * d.2) * (scale * d.2)
                        ≤ radius * radius)%Z
         (list_prod (range (- n) n) (range (- n) n)).

Definition region_cells (g : Grid) (region : Region) (scale : Z) : list Cell :=
  let c := cellAt g (disk_centre region) in
  (λ d : Cell, (c.1 + d.1, c.2 + d.2)%Z) <$> disk_offsets scale (disk_radius region).

Definition total (l : list R) : R := foldr Rplus 0 l.

(** Modelled from the spec: [ee.Reducer.mean()] is platform code; after
    section 4.1 it is the arithmetic mean of the valid cells, and missing
    ([null]) when the disk has none. *)
Definition Reducer_mean (l : list R) : option R :=
  match l with
  | [] => None
  | _ => Some (total l / INR (length l))
  end.

(** The unmasked values of a band over a list of cells. *)
Definition valid_values (b : Band) (cells : list Cell) : list R := omap b cells.

(** The reduction proper, one dictionary entry per band. *)
Definition reduce_bands (reducer : list R → option R) (img : Image) (cells : list Cell)
  : list (string * option R) :=
  (λ nb : string * Band, (nb.1, reducer (valid_values nb.2 cells))) <$> bands img.

(** Modelled from the spec: [image.reduceRegion({reducer, geometry, scale,
    maxPixels})] is platform code; after section 4.1 the number of cells
    visited is capped.  On the platform a region of more than [maxPixels]
    cells is an error, not a truncated reduction. *)
Definition Image_reduceRegion (img : Image) (reducer : list R → option R)
    (region : Region) (scale : Z) (maxPixels : Z) : result (list (string * option R)) :=
  let cells := region_cells (grid img) region scale in
  if decide (maxPixels < Z.of_nat (length cells))%Z
  then Err "Image.reduceRegion: Too many pixels in the region"
  else Ok (reduce_bands reducer img cells).

(** [dictionary.get(key)]: the key has to be there; its value may be null. *)
Definition Dictionary_get (d : list (string * option R)) (key : string)
  : result (option Value) :=
  match list_find (λ kv, kv.1 = key) d with
  | Some (_, (_, v)) => Ok (VNum <$> v)
  | None => Err ("Dictionary.get: no such key: " +:+ key)
  end.

End EE.

Module Script.
Import EE.

(** ** Solar Radiation Index: constants *)

Definition solarDeclination : R := 23.44 * PI / 180.
Definition solarAzimuth : R := 136.52 * PI / 180.

(** The arithmetic of [withSRI] on three numbers in degrees. *)
Definition sri_value (slope aspect lat : R) : R :=
  let slopeRad := slope * PI / 180 in
  let aspectRad := aspect * PI / 180 in
  let latRad := lat * PI / 180 in
  let solarZenith := Rabs (latRad - solarDeclination) in
  cos solarZenith * cos slopeRad
  + sin solarZenith * sin slopeRad * cos (aspectRad - solarAzimuth).

(** What a run shows: the console lines and the exported table. *)
Record Output : Type := mkOutput {
  console : list (list string);
  exported : result (list Feature)
}.

Section Run.

(** The inputs of a run: the imported thaw points, the first band of the
    ArcticDEM mosaic with its 2 m grid, and the platform's terrain
    algorithms. *)
Variable thawPoints : list Feature.
Variable mosaic_grid : Grid.
Variable mosaic_band0 : Band.
Variable alg : TerrainAlgorithm.

(** [ee.Image(...).select(0).rename("elevation")] *)
Definition arcticDEM : Image :=
  {| grid := mosaic_grid; bands := [("elevation", mosaic_band0)] |}.

Definition terrain : result Image := Terrain_products alg arcticDEM.

Definition terrainStack : result Image :=
  t ← terrain; Image_select t ["elevation"; "slope"; "aspect"].

Definition sampledPoints : result (list Feature) :=
  stack ← terrainStack;
  mret (Image_sampleRegions stack thawPoints).

(** Step 1 of the relative elevation: the function mapped over
    [sampledPoints]. *)
Definition sampledWithMean100m_fn (point : Feature) : result Feature :=
  g ← Feature_geometry point;
  let buffer := Geometry_buffer g 100 in
  meanDict ← Image_reduceRegion arcticDEM Reducer_mean buffer 2 1000000;
  meanElev ← Dictionary_get meanDict "elevation";
  mret (Feature_set point "mean_elev_100m" meanElev).

Definition sampledWithMean100m : result (list Feature) :=
  sampledPoints ≫= map_collection sampledWithMean100m_fn.

(** Step 2: the function mapped over [sampledWithMean100m]. *)
Definition withRelativeElev_fn (feature : Feature) : result Feature :=
  elevation ← Number (Feature_get feature "elevation");
  meanElev ← Number (Feature_get feature "mean_elev_100m");
  let relativeElev := elevation - meanElev in
  mret (Feature_set feature "relative_elev" (Some (VNum relativeElev))).

Definition withRelativeElev : result (list Feature) :=
  sampledWithMean100m ≫= map_collection withRelativeElev_fn.

(** The function mapped over [withRelativeElev]. *)
Definition withSRI_fn (feature : Feature) : result Feature :=
  slope ← Number (Feature_get feature "slope");
  let slopeRad := slope * PI / 180 in
  aspect ← Number (Feature_get feature "aspect");
  let aspectRad := aspect * PI / 180 in
  g ← Feature_geometry feature;
  lat ← List_get (Geometry_coordinates g) 1;
  let latRad := lat * PI / 180 in
  let solarZenith := Rabs (latRad - solarDeclination) in
  let sri := cos solarZenith * cos slopeRad
             + sin solarZenith * sin slopeRad * cos (aspectRad - solarAzimuth) in
  mret (Feature_set feature "solar_radiation_index" (Some (VNum sri))).

Definition withSRI : result (list Feature) :=
  withRelativeElev ≫= map_collection withSRI_fn.

Definition run : Output :=
  {| console := [Image_bandNames arcticDEM];
     exported := withSRI |}.

End Run.

End Script.

(** ** The arithmetic of the index in doubles

    Lines 85-108 once more, operation for operation, on binary64 numbers:
    the constants are computed by the client ([23.44 * Math.PI / 180]), the
    rest by the [ee.Number] methods.  The cosine and the sine are those of
    the platform's mathematical library, which is not in the repository:
    they are parameters. *)

Module Doubles.
Import PrimFloat.
#[local] Set Warnings "-inexact-float".
#[local] Open Scope float_scope.

Section Arithmetic.

Variable cos : float → float.
Variable sin : float → float.

(** [Math.PI] *)
Definition PI : float := 3.141592653589793.

Definition solarDeclination : float := 23.44 * PI / 180.
Definition solarAzimuth : float := 136.52 * PI / 180.

Definition sri (slope aspect lat : float) : float :=
  let slopeRad := slope * PI / 180 in
  let aspectRad := aspect * PI / 180 in
  let latRad := lat * PI / 180 in
  let solarZenith := abs (latRad - solarDeclination) in
  cos solarZenith * cos slopeRad
  + sin solarZenith * sin slopeRad * cos (aspectRad - solarAzimuth).

End Arithmetic.

End Doubles.

(** ** Data to run the script on

    A small world for the examples: a 2 m grid laid out around the
    geographic centre used for the solar constants, a level raster of
    elevation 120 that covers 1000 cells either side of the origin cell, and
    the terrain of a level raster. *)

Module Example.
Import EE.

Definition example_cellAt (p : Point) : Cell :=
  (Int_part ((lon p + 150) * 50000 + 1 / 2),
   Int_part ((lat p - 64.73) * 50000 + 1 / 2)).

Definition example_centre (c : Cell) : Point :=
  mkPoint (-150 + IZR c.1 / 50000) (64.73 + IZR c.2 / 50000).

Lemma example_cellAt_centre c : example_cellAt (example_centre c) = c.
Proof.
  destruct c as [i j]. unfold example_cellAt, example_centre; simpl.
  f_equal; symmetry; apply Int_part_spec; lra.
Qed.

Definition example_grid : Grid :=
  mkGrid example_cellAt example_centre example_cellAt_centre.

Definition covered (c : Cell) : Prop :=
  (Z.abs c.1 ≤ 1000 ∧ Z.abs c.2 ≤ 1000)%Z.

#[global] Instance covered_dec c : Decision (covered c).
Proof. unfold covered. apply _. Defined.

Definition level_band : Band :=
  λ c, if decide (covered c) then Some 120 else None.

(** Slope 0 and aspect 0 wherever the cell and its four neighbours have a
    value, nothing on the rim. *)
Definition level_derivative (b : Band) : Band :=
  λ c, _ ← b c;
       _ ← b (c.1 - 1, c.2)%Z; _ ← b (c.1 + 1, c.2)%Z;
       _ ← b (c.1, c.2 - 1)%Z; _ ← b (c.1, c.2 + 1)%Z;
       Some 0.

Definition level_terrain : TerrainAlgorithm :=
  mkTerrain level_derivative level_derivative level_derivative.

(** Three thaw points: one on the origin cell, one ten degrees of longitude
    to the east, far outside the raster, and one without coordinates. *)
Definition point_inside : Feature :=
  {| geometry := Some (mkPoint (-150) 64.73);
     properties := {[ "id" := VStr "P1" ]} |}.

Definition point_outside : Feature :=
  {| geometry := Some (mkPoint (-140) 64.73);
     properties := {[ "id" := VStr "P2" ]} |}.

Definition point_malformed : Feature :=
  {| geometry := None;
     properties := {[ "id" := VStr "P3" ]} |}.

(** A second thaw point a few centimetres west of the first, in the same
    cell. *)
Definition point_nearby : Feature :=
  {| geometry := Some (mkPoint (-150.000001) 64.73);
     properties := {[ "id" := VStr "P4" ]} |}.

(** A record shaped like the worked example of the specification: a point at
    (-150.0, 64.73) with elevation 120, slope 10, aspect 180 and a
    neighbourhood mean of 115. *)
Definition example_record : Feature :=
  {| geometry := Some (mkPoint (-150) 64.73);
     properties := {[ "elevation" := VNum 120; "slope" := VNum 10;
                      "aspect" := VNum 180; "mean_elev_100m" := VNum 115 ]} |}.


(** A record placed on the far point, as if the raster had been sampled
    there. *)
Definition record_outside : Feature :=
  {| geometry := Some (mkPoint (-140) 64.73);
     properties := {[ "elevation" := VNum 120; "slope" := VNum 0;
                      "aspect" := VNum 0 ]} |}.

(** The same slope, aspect and latitude ten degrees of longitude to the
    east, at another elevation and under another name. *)
Definition eastern_record : Feature :=
  {| geometry := Some (mkPoint (-140) 64.73);
     properties := {[ "id" := VStr "east"; "elevation" := VNum 500;
                      "slope" := VNum 10; "aspect" := VNum 180 ]} |}.


(** A record [x] degrees of latitude away from the declination. *)
Definition mirrored_record (x : R) : Feature :=
  {| geometry := Some (mkPoint (-150) (23.44 + x));
     properties := {[ "slope" := VNum 10; "aspect" := VNum 180 ]} |}.

End Example.

(** ** The mathematical library at a few points *)

Module Libm.
Import PrimFloat.

(** A function of doubles given by a table of its values. *)
Definition tabulated (table : list (float * float))
    (x : float) : float :=
  match List.find (λ xy, eqb xy.1 x) table with
  | Some xy => xy.2
  | None => nan
  end.

(** The cosine and the sine of the mathematical library at the doubles that
    the examples below reach, each the exact value rounded to the nearest
    double; the tables hold nothing else. *)
Definition libm_cos : float → float :=
  tabulated
    [ (0x0.0p+0, 0x1.0p+0);
      (* 0.13962634015954636 -> 0.9902680687415704 *)
      (0x1.1df46a2529d39p-3, 0x1.fb046a930947ap-1);
      (* 0.1396263401595464 -> 0.9902680687415704 *)
      (0x1.1df46a2529d3ap-3, 0x1.fb046a930947ap-1);
      (* 0.1745329251994328 -> 0.9848077530122081 *)
      (0x1.657184ae74482p-3, 0x1.f838b8c811c18p-1);
      (* 0.17453292519943295 -> 0.984807753012208 *)
      (0x1.657184ae74487p-3, 0x1.f838b8c811c17p-1);
      (* 0.174532925199433 -> 0.984807753012208 *)
      (0x1.657184ae74489p-3, 0x1.f838b8c811c17p-1);
      (* 0.7588691587671343 -> 0.7256146078904152 *)
      (0x1.848a7f95b21c8p-1, 0x1.7383c204c744dp-1) ]%float.

Definition libm_sin : float → float :=
  tabulated
    [ (0x0.0p+0, 0x0.0p+0);
      (* 0.13962634015954636 -> 0.13917310096006544 *)
      (0x1.1df46a2529d39p-3, 0x1.1d06c968d9e19p-3);
      (* 0.1396263401595464 -> 0.13917310096006547 *)
      (0x1.1df46a2529d3ap-3, 0x1.1d06c968d9e1ap-3);
      (* 0.1745329251994328 -> 0.1736481776669302 *)
      (0x1.657184ae74482p-3, 0x1.63a1a7e0b7384p-3);
      (* 0.17453292519943295 -> 0.17364817766693033 *)
      (0x1.657184ae74487p-3, 0x1.63a1a7e0b7389p-3);
      (* 0.174532925199433 -> 0.1736481776669304 *)
      (0x1.657184ae74489p-3, 0x1.63a1a7e0b738bp-3) ]%float.

End Libm.

Import EE Script Example.

(** * Vocabulary of the statements *)

(** The inputs [withSRI] reads from a feature. *)
Definition sri_inputs (feature : Feature) (slope aspect : R) (g : Point) : Prop :=
  Feature_get feature "slope" = Some (VNum slope)
  ∧ Feature_get feature "aspect" = Some (VNum aspect)
  ∧ geometry feature = Some g.

(** The three mapped functions of the script and the field each one sets. *)
Inductive Stage : Type := MeanElevation | RelativeElevation | SolarRadiation.

Definition stage_fn (g : Grid) (b : Band) (st : Stage) : Feature → result Feature :=
  match st with
  | MeanElevation => sampledWithMean100m_fn g b
  | RelativeElevation => withRelativeElev_fn
  | SolarRadiation => withSRI_fn
  end.

Definition stage_field (st : Stage) : string :=
  match st with
  | MeanElevation => "mean_elev_100m"
  | RelativeElevation => "relative_elev"
  | SolarRadiation => "solar_radiation_index"
  end.

Section Vocabulary.

Variable g : Grid.
Variable b : Band.
Variable alg : TerrainAlgorithm.

(** The image [terrainStack] evaluates to. *)
Definition stack : Image :=
  {| grid := g;
     bands := [("elevation", b); ("slope", slopeOf alg b); ("aspect", aspectOf alg b)] |}.

(** A record as [sampleRegions] leaves it: on a covered cell, with the three
    band values as properties. *)
Definition sampled (s : Feature) (p : Point) (e sl a : R) : Prop :=
  geometry s = Some p
  ∧ b (cellAt g p) = Some e
  ∧ Feature_get s "elevation" = Some (VNum e)
  ∧ Feature_get s "slope" = Some (VNum sl)
  ∧ Feature_get s "aspect" = Some (VNum a).

(** The valid elevations in the 100 m disk around a point, and their mean. *)
Definition disk_values (p : Point) : list R :=
  valid_values b (region_cells g (Geometry_buffer p 100) 2).

Definition mean_value (vs : list R) : R := total vs / INR (length vs).

(** A finished record: the sampled record with the three derived fields. *)
Definition finished (s r : Feature) : Prop :=
  ∃ p e sl a,
    sampled s p e sl a
    ∧ disk_values p ≠ []
    ∧ r = Feature_set
            (Feature_set
               (Feature_set s "mean_elev_100m" (Some (VNum (mean_value (disk_values p)))))
               "relative_elev" (Some (VNum (e - mean_value (disk_values p)))))
            "solar_radiation_index" (Some (VNum (sri_value sl a (lat p)))).

(** The thaw points [sampleRegions] keeps: those with a geometry whose cell
    has a value in all three bands. *)
Definition kept (f : Feature) : Prop :=
  match geometry f with
  | Some p => is_Some (b (cellAt g p))
              ∧ is_Some (slopeOf alg b (cellAt g p))
              ∧ is_Some (aspectOf alg b (cellAt g p))
  | None => False
  end.

#[global] Instance kept_dec f : Decision (kept f).
Proof. unfold kept. destruct (geometry f); apply _. Defined.

(** A record of the table, told from the thaw point it comes from. *)
Definition record_of (f r : Feature) : Prop :=
  ∃ p e sl a,
    geometry f = Some p
    ∧ b (cellAt g p) = Some e
    ∧ slopeOf alg b (cellAt g p) = Some sl
    ∧ aspectOf alg b (cellAt g p) = Some a
    ∧ disk_values (centre g (cellAt g p)) ≠ []
    ∧ r = Feature_set
            (Feature_set
               (Feature_set
                  (Feature_set
                     (Feature_set
                        (Feature_set
                           {| geometry := Some (centre g (cellAt g p));
                              properties := properties f |}
                           "elevation" (Some (VNum e)))
                        "slope" (Some (VNum sl)))
                     "aspect" (Some (VNum a)))
                  "mean_elev_100m"
                  (Some (VNum (mean_value (disk_values (centre g (cellAt g p)))))))
               "relative_elev"
               (Some (VNum (e - mean_value (disk_values (centre g (cellAt g p)))))))
            "solar_radiation_index"
            (Some (VNum (sri_value sl a (lat (centre g (cellAt g p)))))).

(** The records a stage is handed in a run: what [sampleRegions] made of
    some thaw point, passed through the stages before it. *)
Definition reaches (st : Stage) (f : Feature) : Prop :=
  ∃ f0 s,
    sample_feature stack f0 = Some s
    ∧ match st with
      | MeanElevation => f = s
      | RelativeElevation => sampledWithMean100m_fn g b s = Ok f
      | SolarRadiation =>
          ∃ s1, sampledWithMean100m_fn g b s = Ok s1 ∧ withRelativeElev_fn s1 = Ok f
      end.

End Vocabulary.

(** The six fields the script writes. *)
Definition derived_fields : list string :=
  ["elevation"; "slope"; "aspect";
   "mean_elev_100m"; "relative_elev"; "solar_radiation_index"].

(** The mean of the valid elevations around the origin cell. *)
Definition mean_inside : R :=
  mean_value (disk_values example_grid level_band (centre example_grid (0, 0)%Z)).

(** The sampled record of the point on the origin cell. *)
Definition sampled_inside : Feature :=
  {| geometry := Some (centre example_grid (0, 0)%Z);
     properties := <["aspect" := VNum 0]>
                     (<["slope" := VNum 0]>
                        (<["elevation" := VNum 120]> (properties point_inside))) |}.

(** That record after the mean stage, and after the relative elevation
    stage. *)
Definition with_mean_inside : Feature :=
  Feature_set sampled_inside "mean_elev_100m" (Some (VNum mean_inside)).

Definition with_relative_inside : Feature :=
  Feature_set with_mean_inside "relative_elev" (Some (VNum (120 - mean_inside))).


(** * The Solar Radiation Index *)

Section SRI.

Implicit Types slope aspect lat x : R.

Lemma sri_value_unfold slope aspect lat :
  sri_value slope aspect lat =
    cos (Rabs (lat * PI / 180 - solarDeclination)) * cos (slope * PI / 180)
    + sin (Rabs (lat * PI / 180 - solarDeclination)) * sin (slope * PI / 180)
      * cos (aspect * PI / 180 - solarAzimuth).
Proof. reflexivity. Qed.

(** A value between the cosine of a difference and the cosine of a sum. *)
Lemma cos_mix_bounds (z s c : R) :
  -1 <= c <= 1 → -1 <= cos z * cos s + sin z * sin s * c <= 1.
Proof.
  intros [Hlo Hhi].
  pose proof (COS_bound (z - s)) as [Hm1 Hm2].
  pose proof (COS_bound (z + s)) as [Hp1 Hp2].
  rewrite cos_minus in Hm1, Hm2. rewrite cos_plus in Hp1, Hp2.
  set (A := cos z * cos s) in *. set (B := sin z * sin s) in *.
  split; nra.
Qed.

Lemma withSRI_fn_sri_value feature slope aspect g :
  sri_inputs feature slope aspect g →
  withSRI_fn feature
  = Ok (Feature_set feature "solar_radiation_index"
          (Some (VNum (sri_value slope aspect (lat g))))).
Proof.
  intros (Hs & Ha & Hg). unfold withSRI_fn, Feature_geometry.
  rewrite Hs, Ha, Hg. reflexivity.
Qed.

Lemma Feature_get_set_eq f key v : Feature_get (Feature_set f key v) key = v.
Proof.
  unfold Feature_get, Feature_set; destruct v; simpl.
  - apply lookup_insert_eq.
  - apply lookup_delete_eq.
Qed.

Lemma Feature_get_set_ne f key v k :
  k ≠ key → Feature_get (Feature_set f key v) k = Feature_get f k.
Proof.
  intros Hne. unfold Feature_get, Feature_set; destruct v; simpl.
  - by apply lookup_insert_ne.
  - by apply lookup_delete_ne.
Qed.

Lemma zenith_at_offset x :
  Rabs ((23.44 + x) * PI / 180 - solarDeclination)
  = Rabs ((23.44 - x) * PI / 180 - solarDeclination).
Proof.
  unfold solarDeclination.
  replace ((23.44 + x) * PI / 180 - 23.44 * PI / 180) with (x * PI / 180) by lra.
  replace ((23.44 - x) * PI / 180 - 23.44 * PI / 180) with (- (x * PI / 180)) by lra.
  symmetry. apply Rabs_Ropp.
Qed.

(** C1. For a point that has a slope, an aspect and a latitude, the stage sets
    [solar_radiation_index] to
    cos(zenith) cos(slopeRad) + sin(zenith) sin(slopeRad) cos(aspectRad - azimuth),
    with the three inputs converted from degrees to radians, the zenith
    |latRad - declination|, and the declination 23.44 degrees and the azimuth
    136.52 degrees, in radians, the same for every point. *)
Theorem withSRI_sets_index feature slope aspect g :
  sri_inputs feature slope aspect g →
  let slopeRad := slope * PI / 180 in
  let aspectRad := aspect * PI / 180 in
  let latRad := lat g * PI / 180 in
  let solarZenith := Rabs (latRad - 23.44 * PI / 180) in
  ∃ r, withSRI_fn feature = Ok r
       ∧ Feature_get r "solar_radiation_index"
         = Some (VNum (cos solarZenith * cos slopeRad
                       + sin solarZenith * sin slopeRad
                         * cos (aspectRad - 136.52 * PI / 180))).
Proof.
  intros Hin; simpl. eexists; split.
  - apply (withSRI_fn_sri_value _ _ _ _ Hin).
  - rewrite Feature_get_set_eq. reflexivity.
Qed.

Lemma withSRI_sets_index_witness :
  sri_inputs example_record 10 180 (mkPoint (-150) 64.73)
  ∧ ∃ r, withSRI_fn example_record = Ok r
         ∧ Feature_get r "solar_radiation_index"
           = Some (VNum (cos (Rabs (64.73 * PI / 180 - 23.44 * PI / 180))
                         * cos (10 * PI / 180)
                         + sin (Rabs (64.73 * PI / 180 - 23.44 * PI / 180))
                           * sin (10 * PI / 180)
                           * cos (180 * PI / 180 - 136.52 * PI / 180))).
Proof.
  assert (H : sri_inputs example_record 10 180 (mkPoint (-150) 64.73))
    by (repeat split; reflexivity).
  split; [exact H | exact (withSRI_sets_index _ _ _ _ H)].
Defined.

(** C4, in exact arithmetic.  For every slope, aspect and latitude in
    degrees the stage produces an index, and the index, taken in exact
    arithmetic, lies in the closed interval from -1 to 1.  (The double the
    script computes can leave the interval by rounding, see
    [IndexInDoubles.sri_exceeds_one].) *)
Theorem sri_within_bounds feature slope aspect g :
  sri_inputs feature slope aspect g →
  ∃ r v, withSRI_fn feature = Ok r
         ∧ Feature_get r "solar_radiation_index" = Some (VNum v)
         ∧ v = sri_value slope aspect (lat g)
         ∧ -1 <= v <= 1.
Proof.
  intros Hin. eexists _, _; split; [apply (withSRI_fn_sri_value _ _ _ _ Hin)|].
  split; [apply Feature_get_set_eq|]. split; [reflexivity|].
  rewrite sri_value_unfold. apply cos_mix_bounds, COS_bound.
Qed.

Lemma sri_within_bounds_witness :
  sri_inputs example_record 10 180 (mkPoint (-150) 64.73)
  ∧ ∃ r v, withSRI_fn example_record = Ok r
           ∧ Feature_get r "solar_radiation_index" = Some (VNum v)
           ∧ v = sri_value 10 180 64.73
           ∧ -1 <= v <= 1.
Proof.
  assert (H : sri_inputs example_record 10 180 (mkPoint (-150) 64.73))
    by (repeat split; reflexivity).
  split; [exact H | exact (sri_within_bounds _ _ _ _ H)].
Defined.



(** C10, in exact arithmetic.  The index is symmetric in latitude about the
    declination: two records with the same slope and aspect, one at latitude
    23.44 + x and one at latitude 23.44 - x, get the same index when it is
    taken in exact arithmetic.  (The doubles the script computes agree up to
    rounding only, see [IndexInDoubles.sri_differs_across_declination].) *)
Theorem sri_symmetric_about_declination f1 f2 slope aspect x g1 g2 :
  sri_inputs f1 slope aspect g1 →
  sri_inputs f2 slope aspect g2 →
  lat g1 = 23.44 + x →
  lat g2 = 23.44 - x →
  ∃ r1 r2 v, withSRI_fn f1 = Ok r1 ∧ withSRI_fn f2 = Ok r2
             ∧ Feature_get r1 "solar_radiation_index" = Some (VNum v)
             ∧ Feature_get r2 "solar_radiation_index" = Some (VNum v).
Proof.
  intros H1 H2 Hl1 Hl2. eexists _, _, _.
  split; [apply (withSRI_fn_sri_value _ _ _ _ H1)|].
  split; [apply (withSRI_fn_sri_value _ _ _ _ H2)|].
  rewrite !Feature_get_set_eq. split; [reflexivity|].
  rewrite Hl1, Hl2, !sri_value_unfold, zenith_at_offset. reflexivity.
Qed.

Lemma sri_symmetric_about_declination_witness :
  ∃ r1 r2 v, withSRI_fn (mirrored_record 10) = Ok r1
             ∧ withSRI_fn (mirrored_record (-10)) = Ok r2
             ∧ Feature_get r1 "solar_radiation_index" = Some (VNum v)
             ∧ Feature_get r2 "solar_radiation_index" = Some (VNum v).
Proof.
  apply (sri_symmetric_about_declination (mirrored_record 10) (mirrored_record (-10))
           10 180 10 (mkPoint (-150) (23.44 + 10)) (mkPoint (-150) (23.44 + -10)));
    [repeat split; reflexivity | repeat split; reflexivity | reflexivity | simpl; lra].
Defined.


End SRI.

(** * The index in doubles *)

Module IndexInDoubles.
Import PrimFloat Libm.
#[local] Set Warnings "-inexact-float".
#[local] Open Scope float_scope.

(** C4, as the specification has it, fails in doubles.  At slope 8, aspect
    136.52 and latitude 31.44 the zenith and the slope are the same angle to
    the last place, the aspect term is cos(0) = 1, and the sum of the two
    rounded products is 1.0000000000000002. *)
Lemma sri_exceeds_one :
  Doubles.sri libm_cos libm_sin 8 136.52 31.44 = 0x1.0000000000001p+0
  ∧ (Doubles.sri libm_cos libm_sin 8 136.52 31.44 <=? 1) = false.
Proof. vm_compute. split; reflexivity. Qed.

(** C10, as the specification has it, fails in doubles.  Latitudes 33.44 and
    13.44 lie 10 degrees either side of the declination; their zeniths differ
    in the last places (0.1745329251994328 and 0.174532925199433), and at
    slope 10 and aspect 180 so do the two indices. *)
Lemma sri_differs_across_declination :
  Doubles.sri libm_cos libm_sin 10 180 33.44 = 0x1.fbc38b9fbfb50p-1
  ∧ Doubles.sri libm_cos libm_sin 10 180 13.44 = 0x1.fbc38b9fbfb4fp-1
  ∧ (Doubles.sri libm_cos libm_sin 10 180 33.44
     =? Doubles.sri libm_cos libm_sin 10 180 13.44) = false.
Proof. vm_compute. repeat split; reflexivity. Qed.

End IndexInDoubles.

(** * The stages, one record at a time *)

Lemma bind_Ok_inv {A B} (m : result A) (f : A → result B) y :
  m ≫= f = Ok y → ∃ x, m = Ok x ∧ f x = Ok y.
Proof. destruct m as [x|msg]; simpl; [eauto | discriminate]. Qed.

Lemma bind_Ok {A B} (x : A) (f : A → result B) : Ok x ≫= f = f x.
Proof. reflexivity. Qed.

Ltac stage_inv H :=
  repeat (apply bind_Ok_inv in H as (? & ? & H));
  try (injection H as <-).

Section Stages.

Lemma Feature_set_geometry f key v : geometry (Feature_set f key v) = geometry f.
Proof. reflexivity. Qed.

Lemma stage_fn_is_set g b st f r :
  stage_fn g b st f = Ok r → ∃ v, r = Feature_set f (stage_field st) v.
Proof.
  destruct st; simpl; intros H.
  - unfold sampledWithMean100m_fn in H. stage_inv H. eauto.
  - unfold withRelativeElev_fn in H. stage_inv H. eauto.
  - unfold withSRI_fn in H. stage_inv H. eauto.
Qed.

(** C2. For a record whose [elevation] and [mean_elev_100m] are both defined,
    the stage sets [relative_elev] to the record's [elevation] minus its
    [mean_elev_100m]. *)
Theorem relative_elev_is_difference feature e m :
  Feature_get feature "elevation" = Some (VNum e) →
  Feature_get feature "mean_elev_100m" = Some (VNum m) →
  ∃ r, withRelativeElev_fn feature = Ok r
       ∧ Feature_get r "relative_elev" = Some (VNum (e - m))
       ∧ Feature_get r "elevation" = Some (VNum e)
       ∧ Feature_get r "mean_elev_100m" = Some (VNum m).
Proof.
  intros He Hm. unfold withRelativeElev_fn. rewrite He, Hm. simpl.
  eexists; split; [reflexivity|].
  rewrite Feature_get_set_eq, !Feature_get_set_ne by done. done.
Qed.

Lemma relative_elev_is_difference_witness :
  ∃ r, withRelativeElev_fn example_record = Ok r
       ∧ Feature_get r "relative_elev" = Some (VNum (120 - 115))
       ∧ Feature_get r "elevation" = Some (VNum 120)
       ∧ Feature_get r "mean_elev_100m" = Some (VNum 115).
Proof.
  apply (relative_elev_is_difference example_record 120 115); reflexivity.
Defined.

End Stages.

(** * The neighbourhood of a point *)

Section Disk.

Lemma elem_of_range lo hi x : x ∈ range lo hi ↔ (lo ≤ x ≤ hi)%Z.
Proof. unfold range. rewrite elem_of_seqZ. lia. Qed.

(** The window that [disk_offsets] filters loses nothing: the list holds
    exactly the offsets within the radius. *)
Lemma disk_offsets_spec scale radius (d : Cell) :
  (0 < scale)%Z → (0 ≤ radius)%Z →
  d ∈ disk_offsets scale radius
  ↔ ((scale * d.1) * (scale * d.1) + (scale * d.2) * (scale * d.2)
     ≤ radius * radius)%Z.
Proof.
  intros Hs Hr. unfold disk_offsets. rewrite list_elem_of_filter.
  split; [tauto|]. intros Hd. split; [done|].
  destruct d as [i j]; simpl in *.
  assert (Hb : ∀ k, (scale * k * (scale * k) ≤ radius * radius)%Z →
                    (- (radius / scale) ≤ k ≤ radius / scale)%Z).
  { intros k Hk.
    assert (scale * Z.abs k ≤ radius)%Z by nia.
    assert (Z.abs k ≤ radius / scale)%Z by (apply Z.div_le_lower_bound; lia).
    lia. }
  rewrite <- list_cprod_list_prod. apply list_elem_of_cprod; simpl.
  rewrite !elem_of_range.
  split; apply Hb; nia.
Qed.

Lemma disk_size : Z.of_nat (length (disk_offsets 2 100)) = 7845%Z.
Proof. vm_compute. reflexivity. Qed.

Lemma region_cells_size g p :
  Z.of_nat (length (region_cells g (Geometry_buffer p 100) 2)) = 7845%Z.
Proof.
  unfold region_cells, Geometry_buffer; cbn [disk_centre disk_radius].
  rewrite length_fmap. apply disk_size.
Qed.

(** A disk holds the cell of its centre. *)
Lemma own_cell_in_region g p :
  cellAt g p ∈ region_cells g (Geometry_buffer p 100) 2.
Proof.
  unfold region_cells, Geometry_buffer; cbn [disk_centre disk_radius].
  apply list_elem_of_fmap. exists (0, 0)%Z. split.
  - destruct (cellAt g p) as [i j]; simpl. f_equal; lia.
  - apply disk_offsets_spec; simpl; lia.
Qed.

End Disk.

#[global] Opaque disk_offsets.

Lemma maxPixels_cap_free img reducer p :
  (Z.of_nat (length (region_cells (grid img) (Geometry_buffer p 100) 2)) < 1000000)%Z
  ∧ Image_reduceRegion img reducer (Geometry_buffer p 100) 2 1000000
    = Ok (reduce_bands reducer img (region_cells (grid img) (Geometry_buffer p 100) 2)).
Proof.
  pose proof (region_cells_size (grid img) p) as Hn. split; [lia|].
  unfold Image_reduceRegion. case_decide; [lia | reflexivity].
Qed.

(** C9. A 100 unit disk over 2 unit cells holds 7845 cells, of the order of
    10^4 and far below the cap of 10^6: the cap is never reached, and the
    reduction under the cap is the plain reduction over the cells of the
    disk. *)
Theorem maxPixels_cap_not_reached img reducer p :
  let cells := region_cells (grid img) (Geometry_buffer p 100) 2 in
  (Z.of_nat (length cells) = 7845)%Z
  ∧ (Z.of_nat (length cells) < 1000000)%Z
  ∧ Image_reduceRegion img reducer (Geometry_buffer p 100) 2 1000000
    = Ok (reduce_bands reducer img cells).
Proof.
  intros cells. split; [apply region_cells_size|].
  apply maxPixels_cap_free.
Qed.

(** * The whole run *)

Section Pipeline.

Variable g : Grid.
Variable b : Band.
Variable alg : TerrainAlgorithm.

Lemma terrainStack_eq : terrainStack g b alg = Ok (stack g b alg).
Proof. reflexivity. Qed.

Lemma sampledPoints_eq thawPoints :
  sampledPoints thawPoints g b alg = Ok (Image_sampleRegions (stack g b alg) thawPoints).
Proof. reflexivity. Qed.

(** What [sampleRegions] makes of one thaw point. *)
Lemma sample_feature_Some f s :
  sample_feature (stack g b alg) f = Some s
  ↔ ∃ p e sl a,
      geometry f = Some p
      ∧ b (cellAt g p) = Some e
      ∧ slopeOf alg b (cellAt g p) = Some sl
      ∧ aspectOf alg b (cellAt g p) = Some a
      ∧ s = {| geometry := Some (centre g (cellAt g p));
               properties := <["aspect" := VNum a]>
                               (<["slope" := VNum sl]>
                                  (<["elevation" := VNum e]> (properties f))) |}.
Proof.
  unfold sample_feature, stack; simpl. split.
  - destruct (geometry f) as [p|]; simpl; [|discriminate].
    destruct (b (cellAt g p)) as [e|] eqn:He; simpl; [|discriminate].
    destruct (slopeOf alg b (cellAt g p)) as [sl|] eqn:Hs; simpl; [|discriminate].
    destruct (aspectOf alg b (cellAt g p)) as [a|] eqn:Ha; simpl; [|discriminate].
    intros [= <-]. by exists p, e, sl, a.
  - intros (p & e & sl & a & -> & He & Hs & Ha & ->); simpl.
    by rewrite He, Hs, Ha.
Qed.

Lemma sample_feature_no_geometry f :
  geometry f = None → sample_feature (stack g b alg) f = None.
Proof. unfold sample_feature. by intros ->. Qed.

Lemma sample_feature_uncovered f p :
  geometry f = Some p → b (cellAt g p) = None → sample_feature (stack g b alg) f = None.
Proof.
  intros Hg Hb. destruct (sample_feature (stack g b alg) f) as [s|] eqn:Hs; [|done].
  apply sample_feature_Some in Hs as (p' & e & _ & _ & Hg' & He & _).
  congruence.
Qed.

Lemma sample_feature_sampled f s :
  sample_feature (stack g b alg) f = Some s → ∃ p e sl a, sampled g b s p e sl a.
Proof.
  intros (p & e & sl & a & _ & He & _ & _ & ->)%sample_feature_Some.
  exists (centre g (cellAt g p)), e, sl, a. unfold sampled, Feature_get; simpl.
  rewrite cellAt_centre. split; [done|]. split; [done|].
  by simplify_map_eq.
Qed.

Lemma Reducer_mean_nonempty vs : vs ≠ [] → Reducer_mean vs = Some (mean_value vs).
Proof. by destruct vs. Qed.

Lemma disk_values_nonempty p e : b (cellAt g p) = Some e → disk_values g b p ≠ [].
Proof.
  intros He Hnil.
  assert (e ∈ disk_values g b p) as Hin.
  { apply list_elem_of_omap. exists (cellAt g p). split; [|done].
    apply own_cell_in_region. }
  rewrite Hnil in Hin. by apply not_elem_of_nil in Hin.
Qed.

Lemma mean_stage_eq point p :
  geometry point = Some p →
  sampledWithMean100m_fn g b point
  = Ok (Feature_set point "mean_elev_100m" (VNum <$> Reducer_mean (disk_values g b p))).
Proof.
  intros Hg. unfold sampledWithMean100m_fn, Feature_geometry. rewrite Hg.
  rewrite bind_Ok.
  destruct (maxPixels_cap_free (arcticDEM g b) Reducer_mean p) as [_ ->].
  rewrite bind_Ok. reflexivity.
Qed.

Lemma stages_on_sampled s p e sl a :
  sampled g b s p e sl a →
  ∃ r1 r2 r3,
    sampledWithMean100m_fn g b s = Ok r1
    ∧ withRelativeElev_fn r1 = Ok r2
    ∧ withSRI_fn r2 = Ok r3
    ∧ finished g b s r3.
Proof.
  intros Hs. pose proof Hs as (Hg & Hb & He & Hsl & Ha).
  pose proof (disk_values_nonempty _ _ Hb) as Hne.
  eexists _, _, _. split.
  { rewrite (mean_stage_eq _ _ Hg), (Reducer_mean_nonempty _ Hne). reflexivity. }
  split.
  { unfold withRelativeElev_fn.
    rewrite Feature_get_set_eq, Feature_get_set_ne, He by done. reflexivity. }
  split.
  { apply (withSRI_fn_sri_value _ sl a p). unfold sri_inputs.
    rewrite !Feature_get_set_ne by done. done. }
  exists p, e, sl, a. done.
Qed.

End Pipeline.

(** Three mapped passes, each of which succeeds on what the one before
    produced, succeed on the whole collection, record by record. *)
Lemma map_collection_three {A} (f1 f2 f3 : A → result A) (Rel : A → A → Prop) l :
  Forall (λ s, ∃ r1 r2 r3, f1 s = Ok r1 ∧ f2 r1 = Ok r2 ∧ f3 r2 = Ok r3 ∧ Rel s r3) l →
  ∃ l1 l2 t,
    map_collection f1 l = Ok l1
    ∧ map_collection f2 l1 = Ok l2
    ∧ map_collection f3 l2 = Ok t
    ∧ Forall2 Rel l t.
Proof.
  induction 1 as [|s l (r1 & r2 & r3 & H1 & H2 & H3 & HR) _ (l1 & l2 & t & E1 & E2 & E3 & IH)].
  - exists [], [], []. repeat split; constructor.
  - exists (r1 :: l1), (r2 :: l2), (r3 :: t); simpl.
    rewrite H1, H2, H3; simpl. rewrite E1, E2, E3; simpl.
    repeat split. by constructor.
Qed.

Section RunFacts.

Variable g : Grid.
Variable b : Band.
Variable alg : TerrainAlgorithm.

Implicit Types thawPoints : list Feature.

(** The exported table: one finished record per sampled point, in order;
    the run does not fail. *)
Lemma exported_spec thawPoints :
  ∃ t, exported (run thawPoints g b alg) = Ok t
       ∧ Forall2 (finished g b) (Image_sampleRegions (stack g b alg) thawPoints) t.
Proof.
  destruct (map_collection_three (sampledWithMean100m_fn g b) withRelativeElev_fn
              withSRI_fn (finished g b)
              (Image_sampleRegions (stack g b alg) thawPoints))
    as (l1 & l2 & t & E1 & E2 & E3 & HF).
  { apply Forall_forall. intros s Hs.
    apply list_elem_of_omap in Hs as (f & _ & Hf).
    apply sample_feature_sampled in Hf as (p & e & sl & a & Hsam).
    apply (stages_on_sampled _ _ _ _ _ _ _ Hsam). }
  exists t. split; [|done].
  unfold run, exported, withSRI, withRelativeElev, sampledWithMean100m.
  rewrite sampledPoints_eq, bind_Ok, E1, bind_Ok, E2, bind_Ok. exact E3.
Qed.

(** The run sees the thaw points only through what [sampleRegions] keeps. *)
Lemma run_sampled thawPoints thawPoints' :
  Image_sampleRegions (stack g b alg) thawPoints
  = Image_sampleRegions (stack g b alg) thawPoints' →
  run thawPoints g b alg = run thawPoints' g b alg.
Proof.
  intros E. unfold run, withSRI, withRelativeElev, sampledWithMean100m.
  by rewrite !sampledPoints_eq, E.
Qed.

Lemma run_without_dropped l1 p l2 :
  sample_feature (stack g b alg) p = None →
  run (l1 ++ p :: l2) g b alg = run (l1 ++ l2) g b alg.
Proof.
  intros Hp. apply run_sampled. unfold Image_sampleRegions.
  rewrite !omap_app; simpl. by rewrite Hp.
Qed.

Lemma exported_length thawPoints t :
  exported (run thawPoints g b alg) = Ok t →
  length t = length (Image_sampleRegions (stack g b alg) thawPoints).
Proof.
  intros Ht. destruct (exported_spec thawPoints) as (t' & Ht' & HF).
  rewrite Ht in Ht'. injection Ht' as <-. symmetry. by eapply Forall2_length.
Qed.

(** The relative elevation stage has no path for a missing mean: it fails. *)
Lemma withRelativeElev_fn_missing_mean feature :
  Feature_get feature "mean_elev_100m" = None →
  ∃ msg, withRelativeElev_fn feature = Err msg.
Proof.
  intros Hm. unfold withRelativeElev_fn. rewrite Hm.
  destruct (Number (Feature_get feature "elevation")); simpl; eauto.
Qed.

End RunFacts.

(** * The example world *)

Section ExampleFacts.

Lemma example_cell_inside : cellAt example_grid (mkPoint (-150) 64.73) = (0, 0)%Z.
Proof.
  unfold example_grid, example_cellAt; simpl.
  f_equal; symmetry; apply Int_part_spec; lra.
Qed.

Lemma example_cell_outside :
  cellAt example_grid (mkPoint (-140) 64.73) = (500000, 0)%Z.
Proof.
  unfold example_grid, example_cellAt; simpl.
  f_equal; symmetry; apply Int_part_spec; lra.
Qed.

Lemma level_band_covered c : covered c → level_band c = Some 120.
Proof. intros Hc. unfold level_band. by case_decide. Qed.

Lemma level_band_uncovered c : ¬ covered c → level_band c = None.
Proof. intros Hc. unfold level_band. by case_decide. Qed.

Lemma level_derivative_origin : level_derivative level_band (0, 0)%Z = Some 0.
Proof.
  unfold level_derivative.
  rewrite !level_band_covered by (unfold covered; simpl; lia). reflexivity.
Qed.

Lemma point_outside_uncovered :
  level_band (cellAt example_grid (mkPoint (-140) 64.73)) = None.
Proof.
  rewrite example_cell_outside. apply level_band_uncovered.
  unfold covered; simpl; lia.
Qed.

(** Around the far point the disk meets no covered cell. *)
Lemma point_outside_no_coverage :
  disk_values example_grid level_band (mkPoint (-140) 64.73) = [].
Proof.
  unfold disk_values, valid_values, region_cells, Geometry_buffer;
    cbn [disk_centre disk_radius].
  rewrite example_cell_outside; simpl.
  assert (H : Forall (λ d : Cell, (- 50 ≤ d.1 ≤ 50)%Z) (disk_offsets 2 100)).
  { apply Forall_forall. intros d Hd.
    apply disk_offsets_spec in Hd; [nia | lia | lia]. }
  induction H as [|d l Hd _ IH]; [done|]. rewrite fmap_cons; simpl.
  rewrite level_band_uncovered; [exact IH|].
  unfold covered; simpl; lia.
Qed.

Lemma sample_point_inside :
  sample_feature (stack example_grid level_band level_terrain) point_inside
  = Some sampled_inside.
Proof.
  apply sample_feature_Some. exists (mkPoint (-150) 64.73), 120, 0, 0.
  rewrite example_cell_inside. split; [reflexivity|].
  split; [apply level_band_covered; unfold covered; simpl; lia|].
  split; [apply level_derivative_origin|].
  split; [apply level_derivative_origin|]. reflexivity.
Qed.

Lemma sample_point_outside :
  sample_feature (stack example_grid level_band level_terrain) point_outside = None.
Proof.
  apply (sample_feature_uncovered _ _ _ _ (mkPoint (-140) 64.73));
    [reflexivity | apply point_outside_uncovered].
Qed.

Lemma sample_point_malformed :
  sample_feature (stack example_grid level_band level_terrain) point_malformed = None.
Proof. by apply sample_feature_no_geometry. Qed.

(** The table of a run over the one good point: one record, that point's. *)
Lemma example_table :
  ∃ r, exported (run [point_inside] example_grid level_band level_terrain) = Ok [r]
       ∧ Feature_get r "id" = Some (VStr "P1")
       ∧ Feature_get r "relative_elev" = Some (VNum (120 - mean_value (disk_values example_grid level_band (centre example_grid (0, 0)%Z)))).
Proof.
  destruct (exported_spec example_grid level_band level_terrain [point_inside])
    as (t & Ht & HF).
  unfold Image_sampleRegions in HF; simpl in HF.
  rewrite sample_point_inside in HF.
  apply Forall2_cons_inv_l in HF as (r & t' & Hr & Hnil & ->).
  apply Forall2_nil_inv_l in Hnil as ->.
  exists r. split; [exact Ht|].
  destruct Hr as (p & e & sl & a & (Hg & _ & He & _) & _ & ->).
  injection Hg as <-.
  assert (e = 120) as -> by (unfold Feature_get in He; by simplify_map_eq).
  split.
  - rewrite !Feature_get_set_ne by done. reflexivity.
  - rewrite Feature_get_set_ne by done. apply Feature_get_set_eq.
Qed.

End ExampleFacts.

(** * What a stage adds *)

Lemma stages_explicit g b s p e sl a :
  sampled g b s p e sl a →
  let m := mean_value (disk_values g b p) in
  let r1 := Feature_set s "mean_elev_100m" (Some (VNum m)) in
  let r2 := Feature_set r1 "relative_elev" (Some (VNum (e - m))) in
  sampledWithMean100m_fn g b s = Ok r1
  ∧ Feature_get r1 "elevation" = Some (VNum e)
  ∧ Feature_get r1 "mean_elev_100m" = Some (VNum m)
  ∧ withRelativeElev_fn r1 = Ok r2
  ∧ sri_inputs r2 sl a p.
Proof.
  intros (Hg & Hb & He & Hsl & Ha); simpl.
  pose proof (disk_values_nonempty _ _ _ _ Hb) as Hne.
  assert (H1 : Feature_get (Feature_set s "mean_elev_100m"
                 (Some (VNum (mean_value (disk_values g b p))))) "elevation"
               = Some (VNum e)) by (by rewrite Feature_get_set_ne).
  split.
  { rewrite (mean_stage_eq _ _ _ _ Hg), (Reducer_mean_nonempty _ Hne). reflexivity. }
  split; [exact H1|]. split; [apply Feature_get_set_eq|]. split.
  { unfold withRelativeElev_fn. rewrite H1, Feature_get_set_eq. reflexivity. }
  unfold sri_inputs. rewrite !Feature_get_set_ne by done. done.
Qed.

Lemma stage_frame g b st f r :
  stage_fn g b st f = Ok r →
  geometry r = geometry f
  ∧ ∀ k, k ≠ stage_field st → Feature_get r k = Feature_get f k.
Proof.
  intros H. destruct (stage_fn_is_set _ _ _ _ _ H) as [v ->].
  split; [reflexivity|]. intros k Hk. by apply Feature_get_set_ne.
Qed.

(** C8. Each stage adds its own field and touches nothing else.  On every
    record it is handed in a run a stage succeeds and returns that record
    with its own field set to a number: the mean stage the mean of the valid
    elevations of the disk, the relative elevation stage the elevation minus
    that mean, the index stage the index of the record's slope, aspect and
    latitude.  And wherever a stage succeeds, on any record, the geometry
    and every field but its own (the identifier, [elevation], [slope],
    [aspect], the fields of the earlier stages) are as they were. *)
Theorem stage_only_sets_its_field g b alg st f :
  reaches g b alg st f →
  (∃ r x,
     stage_fn g b st f = Ok r
     ∧ r = Feature_set f (stage_field st) (Some (VNum x))
     ∧ Feature_get r (stage_field st) = Some (VNum x)
     ∧ geometry r = geometry f
     ∧ (∀ k, k ≠ stage_field st → Feature_get r k = Feature_get f k)
     ∧ match st with
       | MeanElevation =>
           ∃ p, geometry f = Some p ∧ x = mean_value (disk_values g b p)
       | RelativeElevation =>
           ∃ e m, Feature_get f "elevation" = Some (VNum e)
                  ∧ Feature_get f "mean_elev_100m" = Some (VNum m)
                  ∧ x = e - m
       | SolarRadiation =>
           ∃ slope aspect p, sri_inputs f slope aspect p
                             ∧ x = sri_value slope aspect (lat p)
       end)
  ∧ ∀ f' r', stage_fn g b st f' = Ok r' →
             geometry r' = geometry f'
             ∧ ∀ k, k ≠ stage_field st → Feature_get r' k = Feature_get f' k.
Proof.
  intros (f0 & s & Hs & Hst). split; [|apply stage_frame].
  apply sample_feature_sampled in Hs as (p & e & sl & a & Hsam).
  pose proof (stages_explicit g b s p e sl a Hsam) as (H1 & He & Hm & H2 & H3).
  simpl in H1, He, Hm, H2, H3.
  destruct st; simpl in *.
  - subst f. eexists _, _. split; [exact H1|]. split; [reflexivity|].
    split; [apply Feature_get_set_eq|]. split; [reflexivity|].
    split; [intros k Hk; by apply Feature_get_set_ne|].
    exists p. split; [apply Hsam | reflexivity].
  - rewrite H1 in Hst. injection Hst as <-.
    eexists _, _. split; [exact H2|]. split; [reflexivity|].
    split; [apply Feature_get_set_eq|]. split; [reflexivity|].
    split; [intros k Hk; by apply Feature_get_set_ne|].
    eexists _, _. split; [exact He|]. split; [exact Hm | reflexivity].
  - destruct Hst as (s1 & Hs1 & Hf). rewrite H1 in Hs1. injection Hs1 as <-.
    rewrite H2 in Hf. injection Hf as <-.
    eexists _, _. split; [apply (withSRI_fn_sri_value _ _ _ _ H3)|].
    split; [reflexivity|]. split; [apply Feature_get_set_eq|].
    split; [reflexivity|].
    split; [intros k Hk; by apply Feature_get_set_ne|].
    exists sl, a, p. split; [exact H3 | reflexivity].
Qed.

Lemma sampled_inside_sampled :
  sampled example_grid level_band sampled_inside (centre example_grid (0, 0)%Z) 120 0 0.
Proof.
  unfold sampled. split; [reflexivity|]. split.
  { rewrite cellAt_centre. apply level_band_covered. unfold covered; simpl; lia. }
  repeat split; reflexivity.
Qed.

Lemma reaches_mean_inside :
  reaches example_grid level_band level_terrain MeanElevation sampled_inside.
Proof. exists point_inside, sampled_inside. split; [apply sample_point_inside | reflexivity]. Qed.

Lemma reaches_relative_inside :
  reaches example_grid level_band level_terrain RelativeElevation with_mean_inside.
Proof.
  exists point_inside, sampled_inside. split; [apply sample_point_inside|].
  apply (stages_explicit _ _ _ _ _ _ _ sampled_inside_sampled).
Qed.

Lemma reaches_index_inside :
  reaches example_grid level_band level_terrain SolarRadiation with_relative_inside.
Proof.
  exists point_inside, sampled_inside. split; [apply sample_point_inside|].
  exists with_mean_inside.
  split; apply (stages_explicit _ _ _ _ _ _ _ sampled_inside_sampled).
Qed.

Lemma stage_only_sets_its_field_witness :
  (∃ r x, stage_fn example_grid level_band MeanElevation sampled_inside = Ok r
          ∧ r = Feature_set sampled_inside "mean_elev_100m" (Some (VNum x))
          ∧ Feature_get r "mean_elev_100m" = Some (VNum x))
  ∧ (∃ r x, stage_fn example_grid level_band RelativeElevation with_mean_inside = Ok r
            ∧ r = Feature_set with_mean_inside "relative_elev" (Some (VNum x))
            ∧ Feature_get r "relative_elev" = Some (VNum x))
  ∧ (∃ r x, stage_fn example_grid level_band SolarRadiation with_relative_inside = Ok r
            ∧ r = Feature_set with_relative_inside "solar_radiation_index" (Some (VNum x))
            ∧ Feature_get r "solar_radiation_index" = Some (VNum x)).
Proof.
  split; [|split].
  - destruct (stage_only_sets_its_field example_grid level_band level_terrain
                MeanElevation sampled_inside reaches_mean_inside)
      as [(r & x & H1 & H2 & H3 & _) _].
    exists r, x. exact (conj H1 (conj H2 H3)).
  - destruct (stage_only_sets_its_field example_grid level_band level_terrain
                RelativeElevation with_mean_inside reaches_relative_inside)
      as [(r & x & H1 & H2 & H3 & _) _].
    exists r, x. exact (conj H1 (conj H2 H3)).
  - destruct (stage_only_sets_its_field example_grid level_band level_terrain
                SolarRadiation with_relative_inside reaches_index_inside)
      as [(r & x & H1 & H2 & H3 & _) _].
    exists r, x. exact (conj H1 (conj H2 H3)).
Defined.

(** * Points that leave no record *)

Section Dropped.

Variable g : Grid.
Variable b : Band.
Variable alg : TerrainAlgorithm.

Lemma sampleRegions_length thawPoints :
  (length (Image_sampleRegions (stack g b alg) thawPoints) ≤ length thawPoints)%nat.
Proof.
  unfold Image_sampleRegions. induction thawPoints as [|f l IH]; [done|].
  change (omap (sample_feature (stack g b alg)) (f :: l))
    with (match sample_feature (stack g b alg) f with
          | Some s => s :: omap (sample_feature (stack g b alg)) l
          | None => omap (sample_feature (stack g b alg)) l
          end).
  destruct (sample_feature _ f); simpl; lia.
Qed.

Lemma run_drops l1 p l2 :
  sample_feature (stack g b alg) p = None →
  run (l1 ++ p :: l2) g b alg = run (l1 ++ l2) g b alg
  ∧ ∃ t, exported (run (l1 ++ p :: l2) g b alg) = Ok t
         ∧ (length t ≤ length (l1 ++ l2))%nat.
Proof.
  intros Hp. pose proof (run_without_dropped g b alg l1 p l2 Hp) as E.
  split; [exact E|]. rewrite E.
  destruct (exported_spec g b alg (l1 ++ l2)) as (t & Ht & _).
  exists t. split; [exact Ht|].
  rewrite (exported_length _ _ _ _ _ Ht). apply sampleRegions_length.
Qed.

End Dropped.

(** C3, as the script has it.  A thaw point whose cell is outside the raster
    is dropped at sampling: the run gives exactly what it gives without the
    point (the same console lines, the same table), so the table holds no
    record for the point and nothing counts it; the run itself succeeds. *)
Theorem uncovered_point_is_dropped g b alg l1 p l2 gp :
  geometry p = Some gp →
  b (cellAt g gp) = None →
  run (l1 ++ p :: l2) g b alg = run (l1 ++ l2) g b alg
  ∧ ∃ t, exported (run (l1 ++ p :: l2) g b alg) = Ok t
         ∧ (length t ≤ length (l1 ++ l2))%nat.
Proof.
  intros Hg Hb. apply run_drops. by apply (sample_feature_uncovered _ _ _ _ gp).
Qed.

Lemma uncovered_point_is_dropped_witness :
  run ([point_inside] ++ point_outside :: []) example_grid level_band level_terrain
  = run ([point_inside] ++ []) example_grid level_band level_terrain
  ∧ ∃ t, exported (run ([point_inside] ++ point_outside :: [])
                     example_grid level_band level_terrain) = Ok t
         ∧ (length t ≤ length ([point_inside] ++ []))%nat.
Proof.
  apply (uncovered_point_is_dropped example_grid level_band level_terrain
           [point_inside] point_outside [] (mkPoint (-140) 64.73)).
  - reflexivity.
  - apply point_outside_uncovered.
Defined.

(** C3, as the specification has it, fails.  In the example world the point
    ten degrees east lies outside the raster; the table of the run over both
    points is the single record of the inside point, the console holds the
    band names and nothing else, and the whole output is the output of the
    run over the inside point alone. *)
Lemma uncovered_point_has_no_record :
  level_band (cellAt example_grid (mkPoint (-140) 64.73)) = None
  ∧ run [point_inside; point_outside] example_grid level_band level_terrain
    = run [point_inside] example_grid level_band level_terrain
  ∧ console (run [point_inside; point_outside]
               example_grid level_band level_terrain) = [["elevation"]]
  ∧ ∃ r, exported (run [point_inside; point_outside]
                     example_grid level_band level_terrain) = Ok [r]
         ∧ Feature_get r "id" = Some (VStr "P1").
Proof.
  split; [apply point_outside_uncovered|].
  assert (E : run [point_inside; point_outside] example_grid level_band level_terrain
              = run [point_inside] example_grid level_band level_terrain).
  { apply (run_without_dropped _ _ _ [point_inside] point_outside []).
    apply sample_point_outside. }
  split; [exact E|]. split; [reflexivity|]. rewrite E.
  destruct example_table as (r & Hr & Hid & _). eauto.
Qed.

(** C7, as the script has it.  A thaw point without a usable coordinate pair
    is dropped at sampling; the run does not fail and gives exactly what it
    gives for the other points alone.  Nothing in the output tells that a
    point was dropped. *)
Theorem malformed_point_is_dropped g b alg l1 p l2 :
  geometry p = None →
  run (l1 ++ p :: l2) g b alg = run (l1 ++ l2) g b alg
  ∧ ∃ t, exported (run (l1 ++ p :: l2) g b alg) = Ok t
         ∧ (length t ≤ length (l1 ++ l2))%nat.
Proof.
  intros Hg. apply run_drops. by apply sample_feature_no_geometry.
Qed.

Lemma malformed_point_is_dropped_witness :
  run ([point_inside] ++ point_malformed :: []) example_grid level_band level_terrain
  = run ([point_inside] ++ []) example_grid level_band level_terrain
  ∧ ∃ t, exported (run ([point_inside] ++ point_malformed :: [])
                     example_grid level_band level_terrain) = Ok t
         ∧ (length t ≤ length ([point_inside] ++ []))%nat.
Proof.
  apply (malformed_point_is_dropped example_grid level_band level_terrain
           [point_inside] point_malformed []).
  reflexivity.
Defined.

(** C7, as the specification has it, fails on the report.  The run over a
    good point and a point without coordinates gives the same console lines
    and the same one-record table as the run over the good point alone. *)
Lemma malformed_point_is_not_reported :
  geometry point_malformed = None
  ∧ run [point_inside; point_malformed] example_grid level_band level_terrain
    = run [point_inside] example_grid level_band level_terrain
  ∧ console (run [point_inside; point_malformed]
               example_grid level_band level_terrain) = [["elevation"]]
  ∧ ∃ r, exported (run [point_inside; point_malformed]
                     example_grid level_band level_terrain) = Ok [r]
         ∧ Feature_get r "id" = Some (VStr "P1").
Proof.
  split; [reflexivity|].
  assert (E : run [point_inside; point_malformed] example_grid level_band level_terrain
              = run [point_inside] example_grid level_band level_terrain).
  { apply (run_without_dropped _ _ _ [point_inside] point_malformed []).
    apply sample_point_malformed. }
  split; [exact E|]. split; [reflexivity|]. rewrite E.
  destruct example_table as (r & Hr & Hid & _). eauto.
Qed.

(** * The neighbourhood mean in the table *)

Lemma valid_values_spec (b : Band) cells v :
  v ∈ valid_values b cells ↔ ∃ c, c ∈ cells ∧ b c = Some v.
Proof. apply list_elem_of_omap. Qed.

Lemma finished_fields g b s r :
  finished g b s r →
  ∃ p e vs,
    geometry r = Some p
    ∧ vs = valid_values b (region_cells g (Geometry_buffer p 100) 2)
    ∧ vs ≠ []
    ∧ Feature_get r "elevation" = Some (VNum e)
    ∧ Feature_get r "mean_elev_100m" = Some (VNum (total vs / INR (length vs)))
    ∧ Feature_get r "relative_elev" = Some (VNum (e - total vs / INR (length vs))).
Proof.
  intros (p & e & sl & a & (Hg & _ & He & _) & Hne & ->).
  exists p, e, (disk_values g b p). split; [exact Hg|]. split; [reflexivity|].
  split; [exact Hne|]. split.
  { rewrite !Feature_get_set_ne by done. exact He. }
  split.
  { rewrite !Feature_get_set_ne by done. apply Feature_get_set_eq. }
  rewrite Feature_get_set_ne by done. apply Feature_get_set_eq.
Qed.

(** C6, as the script has it.  The run succeeds, and for every record of the
    table [mean_elev_100m] is the arithmetic mean over the valid cells of the
    record's 100 m disk only (cells without a value are left out), that
    disk has at least one valid cell, and [relative_elev] is the elevation
    minus that mean.  A point whose disk has no valid cell is not in the
    table at all. *)
Theorem table_mean_over_valid_cells g b alg thawPoints :
  ∃ t, exported (run thawPoints g b alg) = Ok t
       ∧ Forall (λ r, ∃ p e vs,
                   geometry r = Some p
                   ∧ vs = valid_values b (region_cells g (Geometry_buffer p 100) 2)
                   ∧ vs ≠ []
                   ∧ Feature_get r "elevation" = Some (VNum e)
                   ∧ Feature_get r "mean_elev_100m"
                     = Some (VNum (total vs / INR (length vs)))
                   ∧ Feature_get r "relative_elev"
                     = Some (VNum (e - total vs / INR (length vs)))) t.
Proof.
  destruct (exported_spec g b alg thawPoints) as (t & Ht & HF).
  exists t. split; [exact Ht|]. clear Ht.
  induction HF as [|s r l t' Hsr _ IH]; constructor.
  - by apply (finished_fields g b s).
  - exact IH.
Qed.

(** C6, as the specification has it, fails where the disk has no valid cell.
    Around the far point of the example world no cell has a value.  The run
    over both points yields the single record of the inside point: the far
    point gets no record, so no field of it is marked missing.  And on a
    record placed there, the mean stage leaves [mean_elev_100m] without a
    value and the relative elevation stage then fails. *)
Lemma zero_coverage_point_has_no_missing_fields :
  valid_values level_band
    (region_cells example_grid (Geometry_buffer (mkPoint (-140) 64.73) 100) 2) = []
  ∧ (∃ r, exported (run [point_inside; point_outside]
                      example_grid level_band level_terrain) = Ok [r]
          ∧ Feature_get r "id" = Some (VStr "P1"))
  ∧ (∃ r1 msg,
       sampledWithMean100m_fn example_grid level_band record_outside = Ok r1
       ∧ Feature_get r1 "mean_elev_100m" = None
       ∧ withRelativeElev_fn r1 = Err msg).
Proof.
  split; [apply point_outside_no_coverage|]. split.
  - rewrite (run_without_dropped _ _ _ [point_inside] point_outside [])
      by apply sample_point_outside.
    destruct example_table as (r & Hr & Hid & _). eauto.
  - assert (E : sampledWithMean100m_fn example_grid level_band record_outside
                = Ok (Feature_set record_outside "mean_elev_100m" None)).
    { rewrite (mean_stage_eq _ _ _ (mkPoint (-140) 64.73)) by reflexivity.
      by rewrite point_outside_no_coverage. }
    destruct (withRelativeElev_fn_missing_mean
                (Feature_set record_outside "mean_elev_100m" None)) as [msg Hmsg].
    { apply Feature_get_set_eq. }
    eexists _, msg. split; [exact E|]. split; [apply Feature_get_set_eq | exact Hmsg].
Qed.

(** * More on the stages *)

Section StageBehaviour.

(** Two features are the same when they have the same geometry and the same
    value under every key. *)
Lemma Feature_eq (f1 f2 : Feature) :
  geometry f1 = geometry f2 →
  (∀ k, Feature_get f1 k = Feature_get f2 k) →
  f1 = f2.
Proof.
  destruct f1 as [g1 m1], f2 as [g2 m2]; unfold Feature_get; simpl.
  intros -> H. f_equal. by apply map_eq.
Qed.

Lemma Feature_get_set f key v k :
  Feature_get (Feature_set f key v) k = if decide (k = key) then v else Feature_get f k.
Proof.
  case_decide as Hk.
  - subst. apply Feature_get_set_eq.
  - by apply Feature_get_set_ne.
Qed.

Lemma Feature_set_set f key v w :
  Feature_set (Feature_set f key v) key w = Feature_set f key w.
Proof.
  apply Feature_eq; [reflexivity|]. intros k.
  rewrite !Feature_get_set. by case_decide.
Qed.

Lemma Feature_set_comm f k1 v1 k2 v2 :
  k1 ≠ k2 →
  Feature_set (Feature_set f k1 v1) k2 v2 = Feature_set (Feature_set f k2 v2) k1 v1.
Proof.
  intros Hne. apply Feature_eq; [reflexivity|]. intros k.
  rewrite !Feature_get_set. repeat case_decide; congruence.
Qed.

Lemma Number_Ok x r : Number x = Ok r ↔ x = Some (VNum r).
Proof.
  destruct x as [[?|?]|]; simpl; split; intros H; try discriminate; congruence.
Qed.

Lemma withRelativeElev_fn_Ok feature r :
  withRelativeElev_fn feature = Ok r
  ↔ ∃ e m, Feature_get feature "elevation" = Some (VNum e)
           ∧ Feature_get feature "mean_elev_100m" = Some (VNum m)
           ∧ r = Feature_set feature "relative_elev" (Some (VNum (e - m))).
Proof.
  unfold withRelativeElev_fn. split.
  - intros H. stage_inv H. match goal with H : Number _ = Ok _ |- _ => apply Number_Ok in H end.
    match goal with H : Number _ = Ok _ |- _ => apply Number_Ok in H end. eauto.
  - intros (e & m & -> & -> & ->). reflexivity.
Qed.

Lemma withSRI_fn_Ok feature r :
  withSRI_fn feature = Ok r
  ↔ ∃ slope aspect g,
      sri_inputs feature slope aspect g
      ∧ r = Feature_set feature "solar_radiation_index"
              (Some (VNum (sri_value slope aspect (lat g)))).
Proof.
  split.
  - unfold withSRI_fn, Feature_geometry. intros H.
    destruct (Number (Feature_get feature "slope")) as [s|] eqn:Hs; [|discriminate].
    destruct (Number (Feature_get feature "aspect")) as [a|] eqn:Ha; [|discriminate].
    destruct (geometry feature) as [g|] eqn:Hg; [|discriminate].
    apply Number_Ok in Hs, Ha. simpl in H. injection H as <-.
    exists s, a, g. by repeat split.
  - intros (s & a & g & Hin & ->). by apply withSRI_fn_sri_value.
Qed.

Lemma mean_stage_Ok g b point r :
  sampledWithMean100m_fn g b point = Ok r
  ↔ ∃ p, geometry point = Some p
         ∧ r = Feature_set point "mean_elev_100m"
                 (VNum <$> Reducer_mean (disk_values g b p)).
Proof.
  split.
  - intros H. destruct (geometry point) as [p|] eqn:Hg.
    + rewrite (mean_stage_eq g b point p Hg) in H. injection H as <-. eauto.
    + unfold sampledWithMean100m_fn, Feature_geometry in H. rewrite Hg in H.
      discriminate.
  - intros (p & Hg & ->). by apply mean_stage_eq.
Qed.

End StageBehaviour.

(** ** When a stage succeeds, and what it reads *)

(** X1. The relative elevation stage succeeds exactly on the records whose
    [elevation] and [mean_elev_100m] are both numbers; a record that lacks
    one of them, or holds a string there, makes it fail. *)
Theorem withRelativeElev_needs_both_numbers feature :
  (∃ r, withRelativeElev_fn feature = Ok r)
  ↔ ∃ e m, Feature_get feature "elevation" = Some (VNum e)
           ∧ Feature_get feature "mean_elev_100m" = Some (VNum m).
Proof.
  split.
  - intros [r (e & m & He & Hm & _)%withRelativeElev_fn_Ok]. eauto.
  - intros (e & m & He & Hm). eexists. apply withRelativeElev_fn_Ok. eauto.
Qed.

(** X2. The index stage succeeds exactly on the records that have a numeric
    [slope], a numeric [aspect] and a geometry. *)
Theorem withSRI_needs_slope_aspect_geometry feature :
  (∃ r, withSRI_fn feature = Ok r)
  ↔ ∃ slope aspect g, sri_inputs feature slope aspect g.
Proof.
  split.
  - intros [r (s & a & g & Hin & _)%withSRI_fn_Ok]. eauto.
  - intros (s & a & g & Hin). eexists. apply withSRI_fn_Ok. eauto.
Qed.

(** X3. The mean stage succeeds exactly on the records that have a geometry:
    the 100 m buffer never holds more cells than the cap allows, and an empty
    neighbourhood is a missing value, not a failure. *)
Theorem mean_stage_needs_geometry g b point :
  (∃ r, sampledWithMean100m_fn g b point = Ok r) ↔ ∃ p, geometry point = Some p.
Proof.
  split.
  - intros [r (p & Hg & _)%mean_stage_Ok]. eauto.
  - intros (p & Hg). eexists. apply mean_stage_Ok. eauto.
Qed.

(** X4. The mean stage reads the geometry only: two records at the same
    place get the same [mean_elev_100m], whatever their properties (their own
    [elevation] included). *)
Theorem mean_stage_reads_geometry_only g b f1 f2 p :
  geometry f1 = Some p →
  geometry f2 = Some p →
  ∃ r1 r2, sampledWithMean100m_fn g b f1 = Ok r1
           ∧ sampledWithMean100m_fn g b f2 = Ok r2
           ∧ Feature_get r1 "mean_elev_100m" = Feature_get r2 "mean_elev_100m".
Proof.
  intros H1 H2. eexists _, _.
  split; [apply (mean_stage_eq g b f1 p H1)|].
  split; [apply (mean_stage_eq g b f2 p H2)|].
  by rewrite !Feature_get_set_eq.
Qed.

Lemma mean_stage_reads_geometry_only_witness :
  ∃ r1 r2, sampledWithMean100m_fn example_grid level_band point_inside = Ok r1
           ∧ sampledWithMean100m_fn example_grid level_band example_record = Ok r2
           ∧ Feature_get r1 "mean_elev_100m" = Feature_get r2 "mean_elev_100m".
Proof.
  apply (mean_stage_reads_geometry_only example_grid level_band
           point_inside example_record (mkPoint (-150) 64.73)); reflexivity.
Defined.

(** X5. The index stage reads the slope, the aspect and the latitude only:
    two records that agree on these three get the same index, whatever their
    longitude, elevation and other properties. *)
Theorem sri_reads_slope_aspect_latitude f1 f2 slope aspect g1 g2 :
  sri_inputs f1 slope aspect g1 →
  sri_inputs f2 slope aspect g2 →
  lat g1 = lat g2 →
  ∃ r1 r2, withSRI_fn f1 = Ok r1 ∧ withSRI_fn f2 = Ok r2
           ∧ Feature_get r1 "solar_radiation_index"
             = Feature_get r2 "solar_radiation_index".
Proof.
  intros H1 H2 Hlat. eexists _, _.
  split; [apply (withSRI_fn_sri_value _ _ _ _ H1)|].
  split; [apply (withSRI_fn_sri_value _ _ _ _ H2)|].
  by rewrite !Feature_get_set_eq, Hlat.
Qed.

Lemma sri_reads_slope_aspect_latitude_witness :
  ∃ r1 r2, withSRI_fn example_record = Ok r1 ∧ withSRI_fn eastern_record = Ok r2
           ∧ Feature_get r1 "solar_radiation_index"
             = Feature_get r2 "solar_radiation_index".
Proof.
  apply (sri_reads_slope_aspect_latitude example_record eastern_record 10 180
           (mkPoint (-150) 64.73) (mkPoint (-140) 64.73));
    [repeat split; reflexivity | repeat split; reflexivity | reflexivity].
Defined.

(** ** How the stages compose *)

(** X6. Running a stage again on its own output changes nothing: the stage
    succeeds and returns the record it was given. *)
Theorem stage_idempotent g b st f r :
  stage_fn g b st f = Ok r → stage_fn g b st r = Ok r.
Proof.
  destruct st; simpl.
  - intros (p & Hg & ->)%mean_stage_Ok. apply mean_stage_Ok.
    exists p. split; [exact Hg|]. by rewrite Feature_set_set.
  - intros (e & m & He & Hm & ->)%withRelativeElev_fn_Ok.
    apply withRelativeElev_fn_Ok. exists e, m.
    rewrite !Feature_get_set_ne by done. by rewrite Feature_set_set.
  - intros (s & a & p & (Hs & Ha & Hg) & ->)%withSRI_fn_Ok.
    apply withSRI_fn_Ok. exists s, a, p. unfold sri_inputs.
    rewrite !Feature_get_set_ne by done. by rewrite Feature_set_set.
Qed.

Lemma stage_idempotent_witness :
  let r := Feature_set example_record "relative_elev" (Some (VNum (120 - 115))) in
  stage_fn example_grid level_band RelativeElevation r = Ok r.
Proof.
  apply (stage_idempotent example_grid level_band RelativeElevation example_record).
  reflexivity.
Defined.

(** X7. The index stage does not depend on the two elevation stages: run
    before either of them instead of after, it gives the same record. *)
Theorem sri_stage_commutes g b st f r1 r2 :
  st ≠ SolarRadiation →
  stage_fn g b st f = Ok r1 →
  withSRI_fn r1 = Ok r2 →
  ∃ r1', withSRI_fn f = Ok r1' ∧ stage_fn g b st r1' = Ok r2.
Proof.
  intros Hst H1 H2.
  apply withSRI_fn_Ok in H2 as (s & a & p & (Hs & Ha & Hg) & ->).
  destruct st; simpl in *; [| |done].
  - apply mean_stage_Ok in H1 as (p' & Hg' & ->).
    rewrite Feature_get_set_ne in Hs, Ha by done.
    eexists; split.
    + apply withSRI_fn_Ok. exists s, a, p. by repeat split.
    + apply mean_stage_Ok. exists p'. split; [exact Hg'|].
      by apply Feature_set_comm.
  - apply withRelativeElev_fn_Ok in H1 as (e & m & He & Hm & ->).
    rewrite Feature_get_set_ne in Hs, Ha by done.
    eexists; split.
    + apply withSRI_fn_Ok. exists s, a, p. by repeat split.
    + apply withRelativeElev_fn_Ok. exists e, m.
      rewrite !Feature_get_set_ne by done.
      split; [exact He|]. split; [exact Hm|]. by apply Feature_set_comm.
Qed.

Lemma sri_stage_commutes_witness :
  ∃ r1', withSRI_fn example_record = Ok r1'
         ∧ stage_fn example_grid level_band RelativeElevation r1'
           = Ok (Feature_set
                   (Feature_set example_record "relative_elev" (Some (VNum (120 - 115))))
                   "solar_radiation_index" (Some (VNum (sri_value 10 180 64.73)))).
Proof.
  apply (sri_stage_commutes example_grid level_band RelativeElevation example_record
           (Feature_set example_record "relative_elev" (Some (VNum (120 - 115)))));
    [discriminate | reflexivity | reflexivity].
Defined.

(** * More on the index *)

Section IndexValues.

Implicit Types slope aspect x : R.

Lemma sri_value_at_declination slope aspect :
  sri_value slope aspect 23.44 = cos (slope * PI / 180).
Proof.
  rewrite sri_value_unfold. unfold solarDeclination.
  replace (23.44 * PI / 180 - 23.44 * PI / 180) with 0 by lra.
  rewrite Rabs_R0, cos_0, sin_0. lra.
Qed.

(** X8. At the latitude of the declination (23.44 degrees) the zenith is 0
    and the index is the cosine of the slope, whatever the aspect. *)
Theorem sri_at_declination feature slope aspect g :
  sri_inputs feature slope aspect g →
  lat g = 23.44 →
  ∃ r, withSRI_fn feature = Ok r
       ∧ Feature_get r "solar_radiation_index" = Some (VNum (cos (slope * PI / 180))).
Proof.
  intros Hin Hlat. eexists; split; [apply (withSRI_fn_sri_value _ _ _ _ Hin)|].
  by rewrite Feature_get_set_eq, Hlat, sri_value_at_declination.
Qed.

Lemma sri_at_declination_witness :
  ∃ r, withSRI_fn (mirrored_record 0) = Ok r
       ∧ Feature_get r "solar_radiation_index" = Some (VNum (cos (10 * PI / 180))).
Proof.
  apply (sri_at_declination (mirrored_record 0) 10 180 (mkPoint (-150) (23.44 + 0)));
    [repeat split; reflexivity | simpl; lra].
Defined.

End IndexValues.

(** * More on the whole run *)

Section TableFacts.

Variable g : Grid.
Variable b : Band.
Variable alg : TerrainAlgorithm.

Lemma sample_feature_kept f :
  is_Some (sample_feature (stack g b alg) f) ↔ kept g b alg f.
Proof.
  unfold kept. split.
  - intros [s (p & e & sl & a & -> & -> & -> & -> & _)%sample_feature_Some]. eauto.
  - destruct (geometry f) as [p|] eqn:Hg; [|done].
    intros ([e He] & [sl Hs] & [a Ha]). eexists.
    apply sample_feature_Some. exists p, e, sl, a. eauto 10.
Qed.

Lemma sampleRegions_kept thawPoints :
  Forall2 (λ f s, sample_feature (stack g b alg) f = Some s)
    (filter (kept g b alg) thawPoints)
    (Image_sampleRegions (stack g b alg) thawPoints).
Proof.
  unfold Image_sampleRegions. induction thawPoints as [|f l IH]; [constructor|].
  change (omap (sample_feature (stack g b alg)) (f :: l))
    with (match sample_feature (stack g b alg) f with
          | Some s => s :: omap (sample_feature (stack g b alg)) l
          | None => omap (sample_feature (stack g b alg)) l
          end).
  destruct (sample_feature (stack g b alg) f) as [s|] eqn:Hs.
  - rewrite filter_cons_True by (apply sample_feature_kept; eauto).
    by constructor.
  - rewrite filter_cons_False; [exact IH|].
    intros [s Hs']%sample_feature_kept. congruence.
Qed.

Lemma record_of_sample f s r :
  sample_feature (stack g b alg) f = Some s → finished g b s r → record_of g b alg f r.
Proof.
  intros (p & e & sl & a & Hg & He & Hs & Ha & ->)%sample_feature_Some
         (p' & e' & sl' & a' & (Hg' & Hb' & He' & Hs' & Ha') & Hne & ->).
  simpl in Hg'. injection Hg' as <-.
  unfold Feature_get in He', Hs', Ha'; simpl in He', Hs', Ha'.
  simplify_map_eq.
  exists p, e', sl', a'. repeat (split; [done|]). reflexivity.
Qed.

Lemma exported_records thawPoints :
  ∃ t, exported (run thawPoints g b alg) = Ok t
       ∧ Forall2 (record_of g b alg) (filter (kept g b alg) thawPoints) t.
Proof.
  destruct (exported_spec g b alg thawPoints) as (t & Ht & HF).
  exists t. split; [exact Ht|].
  eapply Forall2_trans; [|apply sampleRegions_kept|exact HF].
  intros f s r. apply record_of_sample.
Qed.

End TableFacts.

Lemma record_of_frame g b alg f r k :
  record_of g b alg f r → k ∉ derived_fields → Feature_get r k = Feature_get f k.
Proof.
  intros (p & e & sl & a & _ & _ & _ & _ & _ & ->) Hk.
  unfold derived_fields in Hk.
  repeat (apply not_elem_of_cons in Hk as [? Hk]).
  by rewrite !Feature_get_set_ne by done.
Qed.

(** X12. The exported table has one record for each thaw point that has a
    geometry and a value in all three bands at its cell, in the order of the
    input, and none for any other point.  A record sits at the centre of the
    point's cell, not at the point, and every property of the point other
    than the six written fields is carried over unchanged. *)
Theorem table_follows_kept_points g b alg thawPoints :
  ∃ t, exported (run thawPoints g b alg) = Ok t
       ∧ Forall2 (λ f r,
                    (∃ p, geometry f = Some p
                          ∧ geometry r = Some (centre g (cellAt g p)))
                    ∧ ∀ k, k ∉ derived_fields → Feature_get r k = Feature_get f k)
           (filter (kept g b alg) thawPoints) t.
Proof.
  destruct (exported_records g b alg thawPoints) as (t & Ht & HF).
  exists t. split; [exact Ht|].
  eapply Forall2_impl; [exact HF|]. intros f r Hr. split.
  - destruct Hr as (p & e & sl & a & Hg & _ & _ & _ & _ & ->). by exists p.
  - intros k. by apply (record_of_frame g b alg).
Qed.

(** X13. In every record of the table [elevation], [slope] and [aspect] are
    the band values at the cell of the thaw point, whatever the point carried
    under these names, and [solar_radiation_index] is computed from that
    slope and aspect and from the latitude of the centre of the cell. *)
Theorem table_values_from_cell g b alg thawPoints :
  ∃ t, exported (run thawPoints g b alg) = Ok t
       ∧ Forall2 (λ f r,
                    ∃ p e sl a,
                      geometry f = Some p
                      ∧ b (cellAt g p) = Some e
                      ∧ slopeOf alg b (cellAt g p) = Some sl
                      ∧ aspectOf alg b (cellAt g p) = Some a
                      ∧ Feature_get r "elevation" = Some (VNum e)
                      ∧ Feature_get r "slope" = Some (VNum sl)
                      ∧ Feature_get r "aspect" = Some (VNum a)
                      ∧ Feature_get r "solar_radiation_index"
                        = Some (VNum (sri_value sl a (lat (centre g (cellAt g p))))))
           (filter (kept g b alg) thawPoints) t.
Proof.
  destruct (exported_records g b alg thawPoints) as (t & Ht & HF).
  exists t. split; [exact Ht|].
  eapply Forall2_impl; [exact HF|].
  intros f r (p & e & sl & a & Hg & He & Hs & Ha & _ & ->).
  exists p, e, sl, a. do 4 (split; [done|]).
  split; [rewrite !Feature_get_set_ne by done; apply Feature_get_set_eq|].
  split; [rewrite !Feature_get_set_ne by done; apply Feature_get_set_eq|].
  split; [rewrite !Feature_get_set_ne by done; apply Feature_get_set_eq|].
  apply Feature_get_set_eq.
Qed.

(** * More on the relative elevation *)

Section Relief.

Lemma total_bounds vs lo hi :
  Forall (λ v, lo <= v <= hi) vs →
  lo * INR (length vs) <= total vs <= hi * INR (length vs).
Proof.
  induction 1 as [|v vs Hv _ IH].
  - simpl. lra.
  - change (length (v :: vs)) with (S (length vs)). rewrite S_INR.
    change (total (v :: vs)) with (v + total vs). lra.
Qed.

Lemma length_pos_INR (vs : list R) : vs ≠ [] → 0 < INR (length vs).
Proof. destruct vs; [done|]. intros _. apply lt_0_INR. simpl. lia. Qed.

Lemma mean_value_bounds vs lo hi :
  vs ≠ [] → Forall (λ v, lo <= v <= hi) vs → lo <= mean_value vs <= hi.
Proof.
  intros Hne HF. pose proof (length_pos_INR vs Hne) as Hn.
  pose proof (total_bounds vs lo hi HF) as [H1 H2].
  unfold mean_value, Rdiv. split.
  - apply Rmult_le_reg_r with (INR (length vs)); [exact Hn|].
    rewrite Rmult_assoc, Rinv_l by lra. lra.
  - apply Rmult_le_reg_r with (INR (length vs)); [exact Hn|].
    rewrite Rmult_assoc, Rinv_l by lra. lra.
Qed.

Lemma disk_values_bounds g (b : Band) p lo hi :
  (∀ c v, b c = Some v → lo <= v <= hi) →
  Forall (λ v, lo <= v <= hi) (disk_values g b p).
Proof.
  intros Hb. apply Forall_forall. intros v (c & _ & Hc)%valid_values_spec. eauto.
Qed.

Lemma level_band_values c v : level_band c = Some v → 120 <= v <= 120.
Proof. unfold level_band. case_decide; intros [= <-]; lra. Qed.

(** X14. The relative elevation never exceeds the relief of the raster: when
    every value of the raster lies between [lo] and [hi], every record of
    the table has a [relative_elev] between [lo - hi] and [hi - lo]; on a
    level raster it is 0. *)
Theorem relative_elev_within_relief g b alg thawPoints lo hi :
  (∀ c v, b c = Some v → lo <= v <= hi) →
  ∃ t, exported (run thawPoints g b alg) = Ok t
       ∧ Forall (λ r, ∃ v, Feature_get r "relative_elev" = Some (VNum v)
                           ∧ lo - hi <= v <= hi - lo) t.
Proof.
  intros Hb. destruct (exported_spec g b alg thawPoints) as (t & Ht & HF).
  exists t. split; [exact Ht|]. clear Ht.
  induction HF as [|s r l t' Hsr _ IH]; constructor; [|exact IH].
  destruct Hsr as (p & e & sl & a & (_ & He & _) & Hne & ->).
  eexists. split.
  { rewrite Feature_get_set_ne by done. apply Feature_get_set_eq. }
  pose proof (Hb _ _ He).
  pose proof (mean_value_bounds _ lo hi Hne (disk_values_bounds g b p lo hi Hb)).
  lra.
Qed.

Lemma relative_elev_within_relief_witness :
  ∃ t, exported (run [point_inside; point_outside]
                   example_grid level_band level_terrain) = Ok t
       ∧ Forall (λ r, ∃ v, Feature_get r "relative_elev" = Some (VNum v)
                           ∧ 120 - 120 <= v <= 120 - 120) t.
Proof.
  apply (relative_elev_within_relief example_grid level_band level_terrain
           [point_inside; point_outside] 120 120).
  exact level_band_values.
Defined.

End Relief.

(** * Records and the points around them *)

Lemma Feature_get_set_cong f f' key v k :
  (k ≠ key → Feature_get f k = Feature_get f' k) →
  Feature_get (Feature_set f key v) k = Feature_get (Feature_set f' key v) k.
Proof. intros H. rewrite !Feature_get_set. case_decide; [done | by apply H]. Qed.

Lemma finished_unique g b s r r' : finished g b s r → finished g b s r' → r = r'.
Proof.
  intros (p & e & sl & a & (Hg & _ & He & Hs & Ha) & _ & ->)
         (p' & e' & sl' & a' & (Hg' & _ & He' & Hs' & Ha') & _ & ->).
  congruence.
Qed.

(** X16. No record depends on another point: the table of a collection put
    together from two parts is the table of the first part followed by the
    table of the second. *)
Theorem run_of_appended_collections g b alg l1 l2 :
  ∃ t1 t2, exported (run l1 g b alg) = Ok t1
           ∧ exported (run l2 g b alg) = Ok t2
           ∧ exported (run (l1 ++ l2) g b alg) = Ok (t1 ++ t2).
Proof.
  destruct (exported_spec g b alg l1) as (t1 & H1 & F1).
  destruct (exported_spec g b alg l2) as (t2 & H2 & F2).
  destruct (exported_spec g b alg (l1 ++ l2)) as (t & H & F).
  exists t1, t2. split; [exact H1|]. split; [exact H2|].
  rewrite H. f_equal.
  unfold Image_sampleRegions in *. rewrite omap_app in F.
  eapply Forall2_unique; [exact F | by apply Forall2_app |].
  intros s r r'. apply finished_unique.
Qed.

Lemma example_cell_nearby :
  cellAt example_grid (mkPoint (-150.000001) 64.73) = (0, 0)%Z.
Proof.
  unfold example_grid, example_cellAt; simpl.
  f_equal; symmetry; apply Int_part_spec; lra.
Qed.

Lemma same_cell_inside_nearby :
  cellAt example_grid (mkPoint (-150) 64.73)
  = cellAt example_grid (mkPoint (-150.000001) 64.73).
Proof. by rewrite example_cell_inside, example_cell_nearby. Qed.

Lemma point_inside_kept : kept example_grid level_band level_terrain point_inside.
Proof. apply sample_feature_kept. rewrite sample_point_inside. eauto. Qed.

(** X17. Thaw points that fall in the same cell get the same record but for
    what they carried themselves: the same geometry (the centre of the cell)
    and the same six written fields. *)
Theorem same_cell_same_fields g b alg f1 f2 p1 p2 :
  geometry f1 = Some p1 →
  geometry f2 = Some p2 →
  cellAt g p1 = cellAt g p2 →
  kept g b alg f1 →
  ∃ r1 r2, exported (run [f1; f2] g b alg) = Ok [r1; r2]
           ∧ geometry r1 = geometry r2
           ∧ ∀ k, k ∈ derived_fields → Feature_get r1 k = Feature_get r2 k.
Proof.
  intros Hg1 Hg2 Hc Hk1.
  assert (Hk2 : kept g b alg f2).
  { unfold kept in *. rewrite Hg1 in Hk1. rewrite Hg2, <- Hc. exact Hk1. }
  destruct (exported_records g b alg [f1; f2]) as (t & Ht & HF).
  rewrite filter_cons_True in HF by done.
  rewrite filter_cons_True in HF by done.
  rewrite filter_nil in HF.
  apply Forall2_cons_inv_l in HF as (r1 & t' & Hr1 & HF & ->).
  apply Forall2_cons_inv_l in HF as (r2 & t'' & Hr2 & HF & ->).
  apply Forall2_nil_inv_l in HF as ->.
  exists r1, r2. split; [exact Ht|].
  destruct Hr1 as (q1 & e1 & sl1 & a1 & Hq1 & He1 & Hs1 & Ha1 & _ & ->).
  destruct Hr2 as (q2 & e2 & sl2 & a2 & Hq2 & He2 & Hs2 & Ha2 & _ & ->).
  assert (q1 = p1) as -> by congruence. assert (q2 = p2) as -> by congruence.
  rewrite <- Hc in *.
  assert (e2 = e1) as -> by congruence.
  assert (sl2 = sl1) as -> by congruence.
  assert (a2 = a1) as -> by congruence.
  split; [reflexivity|].
  intros k Hk. do 6 (apply Feature_get_set_cong; intros ?).
  exfalso. unfold derived_fields in Hk.
  repeat (apply elem_of_cons in Hk as [->|Hk]); try done.
  by apply elem_of_nil in Hk.
Qed.

Lemma same_cell_same_fields_witness :
  ∃ r1 r2, exported (run [point_inside; point_nearby]
                       example_grid level_band level_terrain) = Ok [r1; r2]
           ∧ geometry r1 = geometry r2
           ∧ ∀ k, k ∈ derived_fields → Feature_get r1 k = Feature_get r2 k.
Proof.
  apply (same_cell_same_fields example_grid level_band level_terrain
           point_inside point_nearby (mkPoint (-150) 64.73) (mkPoint (-150.000001) 64.73));
    [reflexivity | reflexivity | exact same_cell_inside_nearby | exact point_inside_kept].
Defined.
